(** * Middleware of prometheus-mcp-server

    A shallow embedding of [src/prometheus_mcp_server/middleware.py] and the
    properties of its two interceptors:

    - [StripUnknownArgumentsMiddleware.on_call_tool] drops the arguments of a
      tool invocation that the tool does not declare;
    - [ResponseMetadataMiddleware.on_call_tool] times the delegated call and
      writes package and timing metadata into the response.

    Python objects that the code mutates in place (the invocation message and
    the response) live in stores indexed by object identity.  Code runs in a
    state-and-exception monad over those stores, the logger's records and the
    performance counter. *)

From Stdlib Require Import QArith.
From stdpp Require Import gmap strings list fin_maps functions.

Set Default Proof Using "Type".
Set Warnings "-register-all".
Open Scope string_scope.
Open Scope list_scope.

(** ** Python values *)

(** The values that travel as tool arguments, JSON schemas and response
    metadata.  Nested dicts are association lists; the dicts the middleware
    itself manipulates are [gmap]s. *)
Inductive pyval : Type :=
| PNone
| PBool (b : bool)
| PInt (z : Z)
| PFloat (q : Q)
| PStr (s : string)
| PList (l : list pyval)
| PDict (d : list (string * pyval)).

Abbreviation pydict := (gmap string pyval).

(** Python's truth value testing, [bool(v)]. *)
Definition truthy (v : pyval) : bool :=
  match v with
  | PNone => false
  | PBool b => b
  | PInt z => negb (z =? 0)%Z
  | PFloat q => negb (Qeq_bool q 0)
  | PStr s => negb (String.eqb s EmptyString)
  | PList l => negb (Nat.eqb (length l) 0)
  | PDict d => negb (Nat.eqb (length d) 0)
  end.

(** Truth value of an attribute that holds a dict or [None]. *)
Definition dict_truthy (o : option pydict) : bool :=
  match o with
  | None => false
  | Some d => negb (Nat.eqb (size d) 0)
  end.

(** ** Exceptions *)

(** [except Exception] catches the instances of [Exception]; the signals that
    derive from [BaseException] only ([KeyboardInterrupt], [SystemExit],
    [asyncio.CancelledError]) pass through it. *)
Inductive ExcKind := ExceptionSubclass | BaseExceptionOnly.

Record PyExc := mkExc {
  exc_kind : ExcKind;
  exc_type : string;
  exc_message : string
}.

Definition isinstance_Exception (e : PyExc) : bool :=
  match exc_kind e with
  | ExceptionSubclass => true
  | BaseExceptionOnly => false
  end.

Definition AttributeError (msg : string) : PyExc := mkExc ExceptionSubclass "AttributeError" msg.
Definition TypeError (msg : string) : PyExc := mkExc ExceptionSubclass "TypeError" msg.
Definition KeyError (msg : string) : PyExc := mkExc ExceptionSubclass "KeyError" msg.

Inductive Result (A : Type) : Type :=
| Ok (a : A)
| Raise (e : PyExc).
Arguments Ok {A} a.
Arguments Raise {A} e.

(** ** Objects of the host framework *)

(** Object identity. *)
Definition loc := nat.

(** The request parameters of a tool call: [context.message]. *)
Record Message := mkMessage {
  name : string;
  arguments : option pydict
}.

(** A registered tool; [parameters] is its JSON schema. *)
Record Tool := mkTool {
  parameters : pydict
}.

(** The server object; [get_tool] looks a tool up by name and raises when the
    lookup fails. *)
Record FastMCP := mkFastMCP {
  get_tool : string -> Result Tool
}.

Record FastMCPContext := mkFastMCPContext {
  fastmcp : FastMCP
}.

(** The middleware context: a handle to the host (or [None]) and a reference
    to the message object. *)
Record Context := mkContext {
  fastmcp_context : option FastMCPContext;
  message : loc
}.

(** A tool result; [meta] is its optional metadata dict. *)
Record Response := mkResponse {
  content : pyval;
  meta : option pydict
}.

(** ** Logging *)

Inductive Level := DEBUG | INFO | WARNING | ERROR.

(** The records handed to the module's logger, kept structured: the f-strings
    of the source interpolate exactly these fields. *)
Inductive LogMsg :=
| UnknownArguments (tool : string) (unknown_args : gset string)
| MiddlewareError (e : PyExc)
| OperationCompleted (operation_name : string) (duration_ms : Q)
| OperationFailed (operation_name : string) (duration_ms : Q) (e : PyExc)
| AddedPackageMetadata (v : pyval).

Record LogRecord := mkLog {
  log_level : Level;
  log_msg : LogMsg;
  log_exc_info : bool
}.

(** ** The world and the monad *)

Record World := mkWorld {
  w_messages : loc -> Message;
  w_responses : loc -> Response;
  w_log : list LogRecord;
  w_clock : Q
}.

(** What a middleware does to its collaborators, in order. *)
Inductive Event :=
| EvGetTool (tool : string)
| EvCallNext (context : Context)
| EvGetattrMeta (result : loc)
| EvSetattrMeta (result : loc)
| EvMetaSetitem (result : loc) (key : string)
| EvMetaGetitem (result : loc) (key : string).

Record St := mkSt {
  st_world : World;
  st_trace : list Event
}.

(** The next stage of the pipeline: it sees the context and the world, and
    returns a reference to a response, [None], or raises. *)
Definition CallNext := Context -> World -> Result (option loc) * World.

Definition M (A : Type) : Type := St -> Result A * St.

Definition ret {A} (a : A) : M A := fun s => (Ok a, s).

Definition bind {A B} (m : M A) (f : A -> M B) : M B :=
  fun s =>
    match m s with
    | (Ok a, s') => f a s'
    | (Raise e, s') => (Raise e, s')
    end.

Definition raise {A} (e : PyExc) : M A := fun s => (Raise e, s).

(** [try: m  except Exception as e: handler e]. *)
Definition try_except_Exception {A} (m : M A) (handler : PyExc -> M A) : M A :=
  fun s =>
    match m s with
    | (Ok a, s') => (Ok a, s')
    | (Raise e, s') =>
        if isinstance_Exception e then handler e s' else (Raise e, s')
    end.

Declare Scope py_scope.
Delimit Scope py_scope with py.
Notation "x <- c ;; k" := (bind c (fun x => k))
  (at level 100, c at next level, right associativity) : py_scope.
Notation "c ;; k" := (bind c (fun _ => k))
  (at level 100, right associativity) : py_scope.
Open Scope py_scope.

(** *** State updates *)

Definition set_messages (f : (loc -> Message) -> loc -> Message) (w : World) : World :=
  mkWorld (f (w_messages w)) (w_responses w) (w_log w) (w_clock w).

Definition set_responses (f : (loc -> Response) -> loc -> Response) (w : World) : World :=
  mkWorld (w_messages w) (f (w_responses w)) (w_log w) (w_clock w).

Definition add_log (r : LogRecord) (w : World) : World :=
  mkWorld (w_messages w) (w_responses w) (w_log w ++ [r]) (w_clock w).

Definition on_world (f : World -> World) (s : St) : St :=
  mkSt (f (st_world s)) (st_trace s).

Definition emit (ev : Event) (s : St) : St :=
  mkSt (st_world s) (st_trace s ++ [ev]).

(** *** Primitive operations *)

(** [logger.debug], [logger.info], [logger.warning], [logger.error]. *)
Definition logger (lvl : Level) (msg : LogMsg) (exc_info : bool) : M unit :=
  fun s => (Ok tt, on_world (add_log (mkLog lvl msg exc_info)) s).

(** [context.message.name] *)
Definition message_name (context : Context) : M string :=
  fun s => (Ok (name (w_messages (st_world s) (message context))), s).

(** [context.message.arguments] *)
Definition message_arguments (context : Context) : M (option pydict) :=
  fun s => (Ok (arguments (w_messages (st_world s) (message context))), s).

(** [context.message.arguments = args]: the attribute of the shared message
    object is rebound. *)
Definition set_message_arguments (context : Context) (args : pydict) : M unit :=
  fun s =>
    let l := message context in
    let m := w_messages (st_world s) l in
    (Ok tt, on_world (set_messages (fun f => <[l := mkMessage (name m) (Some args)]> f)) s).

(** [len(d)] *)
Definition len (o : option pydict) : M nat :=
  match o with
  | Some d => ret (size d)
  | None => raise (TypeError "object of type 'NoneType' has no len()")
  end.

(** [d.items()] on an attribute that may hold [None]. *)
Definition items (o : option pydict) : M pydict :=
  match o with
  | Some d => ret d
  | None => raise (AttributeError "'NoneType' object has no attribute 'items'")
  end.

(** [d.keys()], likewise. *)
Definition keys (o : option pydict) : M (gset string) :=
  match o with
  | Some d => ret (dom d)
  | None => raise (AttributeError "'NoneType' object has no attribute 'keys'")
  end.

(** [d.get(key, dflt)] *)
Definition dict_get (d : pydict) (key : string) (dflt : pyval) : pyval :=
  default dflt (d !! key).

(** [v.keys()] on a schema value: only a dict has the method. *)
Definition pyval_keys (v : pyval) : Result (gset string) :=
  match v with
  | PDict d => Ok (list_to_set (d.*1))
  | _ => Raise (AttributeError "object has no attribute 'keys'")
  end.

(** An operation that touches neither the stores nor the collaborators. *)
Definition lift {A} (r : Result A) : M A := fun s => (r, s).

(** [context.fastmcp_context.fastmcp] *)
Definition context_fastmcp (context : Context) : M FastMCP :=
  match fastmcp_context context with
  | Some fc => ret (fastmcp fc)
  | None => raise (AttributeError "'NoneType' object has no attribute 'fastmcp'")
  end.

(** [await server.get_tool(name)] *)
Definition await_get_tool (server : FastMCP) (tool : string) : M Tool :=
  fun s => (get_tool server tool, emit (EvGetTool tool) s).

(** [await call_next(context)] *)
Definition await_call_next (call_next : CallNext) (context : Context) : M (option loc) :=
  fun s =>
    let '(r, w) := call_next context (st_world s) in
    (r, mkSt w (st_trace s ++ [EvCallNext context])).

(** [time.perf_counter()] *)
Definition perf_counter : M Q :=
  fun s => (Ok (w_clock (st_world s)), s).

(** ** StripUnknownArgumentsMiddleware *)

Module StripUnknownArgumentsMiddleware.

(** [{k: v for k, v in args.items() if k in expected_args_names}] *)
Definition filtered_args (expected_args_names : gset string) (args : pydict) : pydict :=
  filter (fun kv => kv.1 ∈ expected_args_names) args.

(** [set(arg_names).difference(expected_args_names)] *)
Definition unknown_args (expected_args_names : gset string) (arg_names : gset string) : gset string :=
  arg_names ∖ expected_args_names.

(** [set(tool_args.keys()) if tool_args else set()] *)
Definition expected_args_names (tool_args : pyval) : Result (gset string) :=
  if truthy tool_args then pyval_keys tool_args else Ok ∅.

(** The guard of line 22, with the short-circuit of [and]. *)
Definition has_arguments (context : Context) : M bool :=
  match fastmcp_context context with
  | None => ret false
  | Some _ =>
      args <- message_arguments context;;
      if dict_truthy args then
        args <- message_arguments context;;
        n <- len args;;
        ret (Nat.ltb 0 n)
      else ret false
  end.

(** The body of the [try] block, lines 22 to 30. *)
Definition strip_arguments (context : Context) : M unit :=
  proceed <- has_arguments context;;
  if proceed : bool then
    server <- context_fastmcp context;;
    tool_name <- message_name context;;
    tool <- await_get_tool server tool_name;;
    let tool_args := dict_get (parameters tool) "properties" PNone in
    expected <- lift (expected_args_names tool_args);;
    args <- message_arguments context;;
    kvs <- items args;;
    let filtered := filtered_args expected kvs in
    args <- message_arguments context;;
    arg_names <- keys args;;
    let unknown := unknown_args expected arg_names in
    (if bool_decide (unknown = ∅) then ret tt
     else
       tool_name <- message_name context;;
       logger INFO (UnknownArguments tool_name unknown) false);;
    set_message_arguments context filtered
  else ret tt.

Definition on_call_tool (context : Context) (call_next : CallNext) : M (option loc) :=
  try_except_Exception
    (strip_arguments context)
    (fun e => logger ERROR (MiddlewareError e) true);;
  await_call_next call_next context.

End StripUnknownArgumentsMiddleware.

(** ** ResponseMetadataMiddleware *)

(** *** The response object *)

(** [getattr(result, "meta", None)] *)
Definition getattr_meta (result : loc) : M (option pydict) :=
  fun s => (Ok (meta (w_responses (st_world s) result)), emit (EvGetattrMeta result) s).

(** [result.meta = d] *)
Definition setattr_meta (result : loc) (d : pydict) : M unit :=
  fun s =>
    let r := w_responses (st_world s) result in
    (Ok tt,
     emit (EvSetattrMeta result)
       (on_world (set_responses (fun f => <[result := mkResponse (content r) (Some d)]> f)) s)).

(** [result.meta[key] = v]: the dict that [result.meta] holds is updated in
    place. *)
Definition meta_setitem (result : loc) (key : string) (v : pyval) : M unit :=
  fun s =>
    let r := w_responses (st_world s) result in
    match meta r with
    | Some d =>
        (Ok tt,
         emit (EvMetaSetitem result key)
           (on_world
              (set_responses (fun f => <[result := mkResponse (content r) (Some (<[key := v]> d))]> f))
              s))
    | None =>
        (Raise (TypeError "'NoneType' object does not support item assignment"),
         emit (EvMetaSetitem result key) s)
    end.

(** [result.meta[key]] *)
Definition meta_getitem (result : loc) (key : string) : M pyval :=
  fun s =>
    let s' := emit (EvMetaGetitem result key) s in
    match meta (w_responses (st_world s) result) with
    | Some d =>
        match d !! key with
        | Some v => (Ok v, s')
        | None => (Raise (KeyError key), s')
        end
    | None => (Raise (TypeError "'NoneType' object is not subscriptable"), s')
    end.

Definition PACKAGE_NAME : string := "prometheus-mcp-server".

Module ResponseMetadataMiddleware.

Definition PACKAGE_METADATA_KEY : string := "_package_metadata".
Definition TIMING_METADATA_KEY : string := "_timing_metadata".

(** [(time.perf_counter() - start_time) * 1000]; the clock's floats are read
    as the rationals they denote. *)
Definition elapsed_ms (start_time now : Q) : Q := (now - start_time) * 1000.

Definition _time_operation (context : Context) (call_next : CallNext)
    (operation_name : string) : M (option loc * Q) :=
  start_time <- perf_counter;;
  try_except_Exception
    (result <- await_call_next call_next context;;
     now <- perf_counter;;
     let duration_ms := elapsed_ms start_time now in
     logger DEBUG (OperationCompleted operation_name duration_ms) false;;
     ret (result, duration_ms))
    (fun e =>
     now <- perf_counter;;
     let duration_ms := elapsed_ms start_time now in
     logger WARNING (OperationFailed operation_name duration_ms e) false;;
     raise e).

Section WithPackage.

(** [importlib.metadata.metadata]: the metadata of the installed
    distributions; [importlib_metadata d k] is [metadata(d)[k]]. *)
Variable importlib_metadata : string -> string -> pyval.

(** The class attribute, read once when the class is created. *)
Definition _package_metadata : string -> pyval := importlib_metadata PACKAGE_NAME.

Definition package_record : pyval :=
  PDict [("name", _package_metadata "name"); ("version", _package_metadata "version")].

Definition timing_record (duration_ms : Q) : pyval :=
  PDict [("tool_response_time_ms", PFloat duration_ms)].

Definition on_call_tool (context : Context) (call_next : CallNext) : M (option loc) :=
  feature_name <- message_name context;;
  timed <- _time_operation context call_next
             (String.append "Tool '" (String.append feature_name "'"));;
  let result := fst timed in
  let duration_ms := snd timed in
  match result with
  | None => ret result
  | Some r =>
      m <- getattr_meta r;;
      (if m is None then setattr_meta r ∅ else ret tt);;
      meta_setitem r PACKAGE_METADATA_KEY package_record;;
      meta_setitem r TIMING_METADATA_KEY (timing_record duration_ms);;
      v <- meta_getitem r PACKAGE_METADATA_KEY;;
      logger DEBUG (AddedPackageMetadata v) false;;
      ret result
  end.

End WithPackage.

End ResponseMetadataMiddleware.

(** ** Observations *)

(** The vocabulary of the statements below: what a state holds for an
    invocation, what a trace records, and the states the two middlewares
    reach. *)

Section Observations.

Import StripUnknownArgumentsMiddleware ResponseMetadataMiddleware.

Implicit Types (context : Context) (s : St).

(** The message object of the invocation, as the state holds it. *)
Definition invocation context s : Message :=
  w_messages (st_world s) (message context).

(** The state after a registry lookup for the invocation's tool. *)
Definition looked_up context s : St :=
  emit (EvGetTool (name (invocation context s))) s.

(** How many times a trace awaits the continuation. *)
Definition calls_next (ev : Event) : bool :=
  match ev with
  | EvCallNext _ => true
  | _ => false
  end.

Definition count_call_next (tr : list Event) : nat :=
  length (List.filter calls_next tr).

(** An outcome that [except Exception] lets the code continue from: a value,
    or an instance of [Exception]. *)
Definition catchable {A} (r : Result A) : bool :=
  match r with
  | Ok _ => true
  | Raise e => isinstance_Exception e
  end.

(** The guard of line 22 as a pure test. *)
Definition proceeds context s : bool :=
  match fastmcp_context context, arguments (invocation context s) with
  | Some _, Some args => negb (Nat.eqb (size args) 0)
  | _, _ => false
  end.

(** The state in which the filter leaves an invocation with arguments [args]
    for a tool that expects [expected]. *)
Definition stripped context (expected : gset string) (args : pydict) s : St :=
  let s1 := looked_up context s in
  let unknown := unknown_args expected (dom args) in
  let s2 :=
    if bool_decide (unknown = ∅) then s1
    else on_world (add_log (mkLog INFO (UnknownArguments (name (invocation context s)) unknown) false)) s1 in
  on_world
    (set_messages
       (fun f => <[message context :=
                     mkMessage (name (invocation context s)) (Some (filtered_args expected args))]> f))
    s2.

(** What a step does to the response store: [r] now holds [new], the other
    objects are as they were. *)
Definition writes_response (r : loc) (new : Response) s s' : Prop :=
  w_responses (st_world s') r = new /\
  forall l, l <> r -> w_responses (st_world s') l = w_responses (st_world s) l.

(** The metadata dict of an annotated response. *)
Definition annotated_meta (importlib_metadata : string -> string -> pyval)
    (duration_ms : Q) (old : option pydict) : pydict :=
  <[TIMING_METADATA_KEY := timing_record duration_ms]>
    (<[PACKAGE_METADATA_KEY := package_record importlib_metadata]> (default ∅ old)).

End Observations.

(** ** Sample objects *)

(** A small host: a registry with two tools, four invocations, two responses,
    and continuations that return or raise. *)
Module Sample.

(** A tool that declares the parameters [a] and [b]. *)
Definition tool_query : Tool :=
  mkTool {[ "type" := PStr "object";
            "properties" := PDict [("a", PDict [("type", PStr "string")]);
                                   ("b", PDict [("type", PStr "integer")])] ]}.

(** A tool whose schema has no [properties] entry. *)
Definition tool_health : Tool := mkTool {[ "type" := PStr "object" ]}.

Definition NotFoundError (tool : string) : PyExc :=
  mkExc ExceptionSubclass "NotFoundError" tool.

Definition server : FastMCP :=
  mkFastMCP (fun tool =>
    if String.eqb tool "query" then Ok tool_query
    else if String.eqb tool "health" then Ok tool_health
    else Raise (NotFoundError tool)).

Definition host : FastMCPContext := mkFastMCPContext server.

Definition args_abc : pydict := {[ "a" := PStr "up"; "b" := PInt 5; "c" := PBool true ]}.
Definition args_verbose : pydict := {[ "verbose" := PBool true ]}.
Definition names_ab : gset string := list_to_set ["a"; "b"].

Definition messages (l : loc) : Message :=
  match l with
  | 0 => mkMessage "query" (Some args_abc)
  | 1 => mkMessage "health" (Some args_verbose)
  | 2 => mkMessage "missing" (Some args_abc)
  | _ => mkMessage "query" (Some ∅)
  end.

Definition meta_request : pydict := {[ "request_id" := PInt 7 ]}.

Definition responses (l : loc) : Response :=
  match l with
  | 0 => mkResponse (PStr "1") None
  | _ => mkResponse (PStr "1") (Some meta_request)
  end.

Definition world : World := mkWorld messages responses [] (3 # 2).
Definition state : St := mkSt world [].

Definition context_query : Context := mkContext (Some host) 0.
Definition context_health : Context := mkContext (Some host) 1.
Definition context_missing : Context := mkContext (Some host) 2.
Definition context_empty : Context := mkContext (Some host) 3.

(** The world a quarter of a second later. *)
Definition later (w : World) : World :=
  mkWorld (w_messages w) (w_responses w) (w_log w) (w_clock w + (1 # 4)).

Definition next_returns (result : option loc) : CallNext :=
  fun _ w => (Ok result, later w).

Definition ToolError : PyExc := mkExc ExceptionSubclass "ToolError" "query timed out".

Definition next_raises (e : PyExc) : CallNext :=
  fun _ w => (Raise e, later w).

(** The installed distributions: this package, at version 1.5.3. *)
Definition installed (distribution key : string) : pyval :=
  if String.eqb distribution PACKAGE_NAME then
    if String.eqb key "name" then PStr PACKAGE_NAME
    else if String.eqb key "version" then PStr "1.5.3"
    else PNone
  else PNone.

End Sample.

(** ** Edge cases of the sample host *)

(** Schemas whose [properties] entry is not a non-empty dict, a lookup that is
    cancelled, and an invocation whose arguments are all declared. *)
Module Edge.

(** A schema whose [properties] entry is a list of names. *)
Definition tool_legacy : Tool :=
  mkTool {[ "properties" := PList [PStr "a"; PStr "b"] ]}.

(** A tool without parameters: [properties] is the empty dict. *)
Definition tool_ping : Tool :=
  mkTool {[ "type" := PStr "object"; "properties" := PDict [] ]}.

Definition CancelledError : PyExc := mkExc BaseExceptionOnly "CancelledError" EmptyString.

Definition server : FastMCP :=
  mkFastMCP (fun tool =>
    if String.eqb tool "legacy" then Ok tool_legacy
    else if String.eqb tool "ping" then Ok tool_ping
    else if String.eqb tool "query" then Ok Sample.tool_query
    else Raise CancelledError).

Definition host : FastMCPContext := mkFastMCPContext server.

Definition args_ab : pydict := {[ "a" := PStr "up"; "b" := PInt 5 ]}.

Definition messages (l : loc) : Message :=
  match l with
  | 0 => mkMessage "legacy" (Some Sample.args_abc)
  | 1 => mkMessage "ping" (Some Sample.args_verbose)
  | 2 => mkMessage "slow" (Some Sample.args_abc)
  | _ => mkMessage "query" (Some args_ab)
  end.

Definition world : World := mkWorld messages Sample.responses [] (3 # 2).
Definition state : St := mkSt world [].

Definition context_legacy : Context := mkContext (Some host) 0.
Definition context_ping : Context := mkContext (Some host) 1.
Definition context_slow : Context := mkContext (Some host) 2.
Definition context_declared : Context := mkContext (Some host) 3.

End Edge.

(** ** What a metadata step leaves alone *)

(** The steps that read or write [r.meta] leave the messages, the clock, the
    log, the other responses and the content of [r] as they are, and do not
    await the continuation. *)
Definition meta_step (r : loc) (s s' : St) : Prop :=
  w_messages (st_world s') = w_messages (st_world s) /\
  w_clock (st_world s') = w_clock (st_world s) /\
  w_log (st_world s') = w_log (st_world s) /\
  (forall l, l <> r -> w_responses (st_world s') l = w_responses (st_world s) l) /\
  content (w_responses (st_world s') r) = content (w_responses (st_world s) r) /\
  count_call_next (st_trace s') = count_call_next (st_trace s).

(** The operation name that [on_call_tool] hands to [_time_operation]. *)
Definition operation_name (context : Context) (s : St) : string :=
  String.append "Tool '" (String.append (name (invocation context s)) "'").

(** * Properties *)

(** ** The argument filter *)

Section StripUnknownArguments.

Import StripUnknownArgumentsMiddleware.

Implicit Types (context : Context) (call_next : CallNext) (s : St) (e : PyExc).

Lemma has_arguments_run context s :
  has_arguments context s = (Ok (proceeds context s), s).
Proof.
  unfold has_arguments, proceeds, invocation.
  destruct (fastmcp_context context) as [fc|]; [|reflexivity].
  unfold bind, message_arguments; simpl.
  destruct (arguments _) as [args|] eqn:Hargs; simpl; [|reflexivity].
  destruct (Nat.eqb_spec (size args) 0) as [Hz|Hz]; simpl; [reflexivity|].
  rewrite Hargs; simpl. unfold ret. do 2 f_equal.
  apply Nat.ltb_lt. lia.
Qed.

Lemma strip_skips context s :
  proceeds context s = false -> strip_arguments context s = (Ok tt, s).
Proof.
  intros Hp. unfold strip_arguments, bind.
  rewrite has_arguments_run, Hp. reflexivity.
Qed.

Lemma proceeds_true context s :
  proceeds context s = true ->
  exists fc args,
    fastmcp_context context = Some fc /\
    arguments (invocation context s) = Some args /\
    args <> ∅.
Proof.
  unfold proceeds. intros Hp.
  destruct (fastmcp_context context) as [fc|]; [|discriminate].
  destruct (arguments _) as [args|]; [|discriminate].
  exists fc, args. repeat split.
  intros ->. rewrite map_size_empty in Hp. discriminate.
Qed.

Lemma proceeds_intro context s fc (args : pydict) :
  fastmcp_context context = Some fc ->
  arguments (invocation context s) = Some args ->
  args <> ∅ ->
  proceeds context s = true.
Proof.
  intros Hfc Hargs Hne. unfold proceeds. rewrite Hfc, Hargs.
  apply negb_true_iff, Nat.eqb_neq.
  intros Hz. apply Hne. by apply map_size_empty_iff.
Qed.

(** The three ways through the [try] block once the guard holds. *)
Lemma strip_run context s fc (args : pydict) :
  fastmcp_context context = Some fc ->
  arguments (invocation context s) = Some args ->
  args <> ∅ ->
  strip_arguments context s =
    match get_tool (fastmcp fc) (name (invocation context s)) with
    | Raise e => (Raise e, looked_up context s)
    | Ok tool =>
        match expected_args_names (dict_get (parameters tool) "properties" PNone) with
        | Raise e => (Raise e, looked_up context s)
        | Ok expected => (Ok tt, stripped context expected args s)
        end
    end.
Proof.
  intros Hfc Hargs Hne.
  unfold strip_arguments, bind at 1.
  rewrite has_arguments_run, (proceeds_intro _ _ _ _ Hfc Hargs Hne).
  unfold context_fastmcp. rewrite Hfc.
  unfold bind, ret, message_name, await_get_tool, lift; simpl.
  fold (invocation context s). fold (looked_up context s).
  destruct (get_tool _ _) as [tool|e]; [|reflexivity].
  destruct (expected_args_names _) as [expected|e]; [|reflexivity].
  unfold message_arguments, stripped, looked_up, invocation in *.
  cbn [st_world emit fst snd]. rewrite Hargs. cbn [items ret].
  cbn [st_world emit fst snd]. rewrite Hargs. cbn [keys ret].
  unfold set_message_arguments, logger.
  destruct (bool_decide _); reflexivity.
Qed.

(** *** The dict comprehension and the set difference *)

Lemma filtered_args_lookup (expected : gset string) (args : pydict) (k : string) :
  filtered_args expected args !! k = if decide (k ∈ expected) then args !! k else None.
Proof.
  unfold filtered_args. rewrite map_lookup_filter.
  destruct (args !! k) as [v|]; simpl.
  - destruct (decide (k ∈ expected)) as [Hin|Hout].
    + by rewrite option_guard_True.
    + by rewrite option_guard_False.
  - by destruct (decide (k ∈ expected)).
Qed.

Lemma filtered_args_dom (expected : gset string) (args : pydict) :
  dom (filtered_args expected args) = dom args ∩ expected.
Proof.
  apply set_eq. intros k.
  rewrite elem_of_intersection, !elem_of_dom, filtered_args_lookup.
  destruct (decide (k ∈ expected)) as [Hin|Hout]; split.
  - intros Hk. by split.
  - by intros [Hk _].
  - intros [v Hv]. discriminate.
  - by intros [_ Hk].
Qed.

Lemma filtered_args_all (expected : gset string) (args : pydict) :
  dom args ⊆ expected -> filtered_args expected args = args.
Proof.
  intros Hsub. apply map_filter_id. intros k v Hk. simpl.
  apply Hsub, elem_of_dom. eauto.
Qed.

Lemma filtered_args_empty (args : pydict) : filtered_args ∅ args = ∅.
Proof.
  apply map_eq. intros k.
  rewrite filtered_args_lookup, lookup_empty.
  destruct (decide (k ∈ (∅ : gset string))) as [Hin|]; [|done].
  by apply not_elem_of_empty in Hin.
Qed.

Lemma filtered_args_filtered (expected : gset string) (args : pydict) :
  filtered_args expected (filtered_args expected args) = filtered_args expected args.
Proof.
  apply filtered_args_all. rewrite filtered_args_dom.
  apply intersection_subseteq_r.
Qed.

Lemma unknown_args_filtered (expected : gset string) (args : pydict) :
  unknown_args expected (dom (filtered_args expected args)) = ∅.
Proof.
  unfold unknown_args. rewrite filtered_args_dom.
  apply set_eq. intros k.
  rewrite elem_of_difference, elem_of_intersection. split; [tauto|].
  intros Hk. by apply not_elem_of_empty in Hk.
Qed.

(** *** Running the filter *)

Lemma stripped_invocation context expected (args : pydict) s :
  invocation context (stripped context expected args s) =
    mkMessage (name (invocation context s)) (Some (filtered_args expected args)).
Proof.
  unfold stripped, invocation, looked_up.
  destruct (bool_decide _); simpl; apply fn_lookup_insert.
Qed.

(** The filter writes to the message of its own invocation only. *)
Lemma stripped_other_messages context expected (args : pydict) s (l : loc) :
  l <> message context ->
  w_messages (st_world (stripped context expected args s)) l = w_messages (st_world s) l.
Proof.
  intros Hl. unfold stripped, looked_up.
  destruct (bool_decide _); simpl; by apply fn_lookup_insert_ne.
Qed.

Lemma stripped_responses context expected (args : pydict) s :
  w_responses (st_world (stripped context expected args s)) = w_responses (st_world s).
Proof. unfold stripped, looked_up. by destruct (bool_decide _). Qed.

Lemma stripped_log context expected (args : pydict) s :
  w_log (st_world (stripped context expected args s)) =
    w_log (st_world s) ++
      (if decide (unknown_args expected (dom args) = ∅) then []
       else [mkLog INFO (UnknownArguments (name (invocation context s))
                           (unknown_args expected (dom args))) false]).
Proof.
  unfold stripped, looked_up.
  destruct (decide _) as [Hu|Hu].
  - rewrite bool_decide_eq_true_2 by done. simpl. by rewrite app_nil_r.
  - rewrite bool_decide_eq_false_2 by done. reflexivity.
Qed.

Lemma stripped_trace context expected (args : pydict) s :
  st_trace (stripped context expected args s) =
    st_trace s ++ [EvGetTool (name (invocation context s))].
Proof. unfold stripped, looked_up. by destruct (bool_decide _). Qed.

Lemma strip_raise_state context s e s' :
  strip_arguments context s = (Raise e, s') -> s' = looked_up context s.
Proof.
  intros Hrun. destruct (proceeds context s) eqn:Hp.
  - destruct (proceeds_true _ _ Hp) as (fc & args & Hfc & Hargs & Hne).
    rewrite (strip_run _ _ _ _ Hfc Hargs Hne) in Hrun.
    destruct (get_tool _ _) as [tool|e1]; [|congruence].
    destruct (expected_args_names _) as [expected|e1]; congruence.
  - rewrite (strip_skips _ _ Hp) in Hrun. discriminate.
Qed.

Lemma on_call_tool_ok context call_next s s1 :
  strip_arguments context s = (Ok tt, s1) ->
  on_call_tool context call_next s = await_call_next call_next context s1.
Proof.
  intros Hrun. unfold on_call_tool, bind, try_except_Exception.
  by rewrite Hrun.
Qed.

Lemma on_call_tool_caught context call_next s e s1 :
  strip_arguments context s = (Raise e, s1) ->
  isinstance_Exception e = true ->
  on_call_tool context call_next s =
    await_call_next call_next context
      (on_world (add_log (mkLog ERROR (MiddlewareError e) true)) s1).
Proof.
  intros Hrun He. unfold on_call_tool, bind, try_except_Exception.
  by rewrite Hrun, He.
Qed.

(** A signal outside [Exception] that interrupts the lookup passes through
    the handler, and the continuation is not awaited. *)
Lemma on_call_tool_uncaught context call_next s e s1 :
  strip_arguments context s = (Raise e, s1) ->
  isinstance_Exception e = false ->
  on_call_tool context call_next s = (Raise e, s1).
Proof.
  intros Hrun He. unfold on_call_tool, bind, try_except_Exception.
  by rewrite Hrun, He.
Qed.

(** C1.  When the invocation carries arguments, the registry lookup succeeds
    and the tool's schema declares the parameter names [expected], the
    continuation is awaited in a state whose message holds exactly the
    restriction of the supplied arguments to [expected], values unchanged;
    the supplied names outside [expected] are logged at INFO level when there
    are any, and nothing else is logged. *)
Theorem on_call_tool_restricts_arguments
    context s fc (args : pydict) tool (expected : gset string) :
  fastmcp_context context = Some fc ->
  arguments (invocation context s) = Some args ->
  args <> ∅ ->
  get_tool (fastmcp fc) (name (invocation context s)) = Ok tool ->
  expected_args_names (dict_get (parameters tool) "properties" PNone) = Ok expected ->
  exists (s1 : St) (args' : pydict),
    (forall call_next,
       on_call_tool context call_next s = await_call_next call_next context s1) /\
    invocation context s1 = mkMessage (name (invocation context s)) (Some args') /\
    (forall k, args' !! k = if decide (k ∈ expected) then args !! k else None) /\
    dom args' = dom args ∩ expected /\
    w_log (st_world s1) =
      w_log (st_world s) ++
        (if decide (dom args ∖ expected = ∅) then []
         else [mkLog INFO (UnknownArguments (name (invocation context s))
                             (dom args ∖ expected)) false]).
Proof.
  intros Hfc Hargs Hne Htool Hexp.
  exists (stripped context expected args s), (filtered_args expected args).
  split; [|split; [|split; [|split]]].
  - intros call_next. apply on_call_tool_ok.
    by rewrite (strip_run _ _ _ _ Hfc Hargs Hne), Htool, Hexp.
  - apply stripped_invocation.
  - apply filtered_args_lookup.
  - apply filtered_args_dom.
  - apply stripped_log.
Qed.

(** C6.  When the host context is unavailable, or the invocation carries no
    argument mapping or an empty one, the continuation is awaited in the very
    state the filter was entered in: no registry lookup, no log record, no
    change to the message. *)
Theorem on_call_tool_noop context call_next s :
  fastmcp_context context = None \/
  arguments (invocation context s) = None \/
  arguments (invocation context s) = Some ∅ ->
  on_call_tool context call_next s = await_call_next call_next context s.
Proof.
  intros Hcase. apply on_call_tool_ok, strip_skips.
  unfold proceeds.
  destruct Hcase as [-> | [-> | ->]]; [done | by destruct (fastmcp_context _) |].
  destruct (fastmcp_context _); [|done].
  by rewrite map_size_empty.
Qed.

(** C7.  When the looked-up tool's schema has no [properties] entry, or the
    entry is [None], every supplied argument is stripped: the continuation is
    awaited with an empty argument mapping, and all supplied names are logged
    as unknown. *)
Theorem on_call_tool_missing_schema_strips_all
    context s fc (args : pydict) tool :
  fastmcp_context context = Some fc ->
  arguments (invocation context s) = Some args ->
  args <> ∅ ->
  get_tool (fastmcp fc) (name (invocation context s)) = Ok tool ->
  parameters tool !! "properties" = None \/
  parameters tool !! "properties" = Some PNone ->
  expected_args_names (dict_get (parameters tool) "properties" PNone) = Ok ∅ /\
  exists s1 : St,
    (forall call_next,
       on_call_tool context call_next s = await_call_next call_next context s1) /\
    invocation context s1 = mkMessage (name (invocation context s)) (Some ∅) /\
    w_log (st_world s1) =
      w_log (st_world s) ++
        [mkLog INFO (UnknownArguments (name (invocation context s)) (dom args)) false].
Proof.
  intros Hfc Hargs Hne Htool Hprops.
  assert (Hexp : expected_args_names (dict_get (parameters tool) "properties" PNone) = Ok ∅).
  { unfold dict_get. by destruct Hprops as [-> | ->]. }
  split; [exact Hexp|].
  exists (stripped context ∅ args s). split; [|split].
  - intros call_next. apply on_call_tool_ok.
    by rewrite (strip_run _ _ _ _ Hfc Hargs Hne), Htool, Hexp.
  - by rewrite stripped_invocation, filtered_args_empty.
  - rewrite stripped_log. unfold unknown_args.
    rewrite difference_empty_L.
    destruct (decide (dom args = ∅)) as [Hd|Hd]; [|done].
    by apply dom_empty_inv_L in Hd.
Qed.

(** C9.  For a fixed set of declared names the argument transformation is
    idempotent, and a second application finds no unknown argument. *)
Theorem filtered_args_idempotent (expected : gset string) (args : pydict) :
  filtered_args expected (filtered_args expected args) = filtered_args expected args /\
  unknown_args expected (dom (filtered_args expected args)) = ∅.
Proof.
  split.
  - (* every key that survived the first pass is expected, so it survives again *)
    apply map_eq. intros k.
    rewrite !filtered_args_lookup.
    by destruct (decide (k ∈ expected)).
  - (* the surviving names are among the expected ones *)
    unfold unknown_args. apply set_eq. intros k.
    rewrite elem_of_difference, elem_of_dom, filtered_args_lookup.
    split.
    + intros [[v Hv] Hout]. by destruct (decide (k ∈ expected)).
    + intros Hk. by apply not_elem_of_empty in Hk.
Qed.

(** A failing registry lookup ends the [try] block right after the lookup. *)
Lemma strip_lookup_fails context s fc (args : pydict) e :
  fastmcp_context context = Some fc ->
  arguments (invocation context s) = Some args ->
  args <> ∅ ->
  get_tool (fastmcp fc) (name (invocation context s)) = Raise e ->
  strip_arguments context s = (Raise e, looked_up context s).
Proof.
  intros Hfc Hargs Hne Htool.
  by rewrite (strip_run _ _ _ _ Hfc Hargs Hne), Htool.
Qed.

Lemma strip_ok_state context s s1 :
  strip_arguments context s = (Ok tt, s1) ->
  s1 = s \/ exists expected (args : pydict), s1 = stripped context expected args s.
Proof.
  intros Hrun. destruct (proceeds context s) eqn:Hp.
  - destruct (proceeds_true _ _ Hp) as (fc & args & Hfc & Hargs & Hne).
    rewrite (strip_run _ _ _ _ Hfc Hargs Hne) in Hrun.
    destruct (get_tool _ _) as [tool|e1]; [|discriminate].
    destruct (expected_args_names _) as [expected|e1]; [|discriminate].
    right. exists expected, args. congruence.
  - rewrite (strip_skips _ _ Hp) in Hrun. left. congruence.
Qed.

Lemma count_call_next_app (tr1 tr2 : list Event) :
  count_call_next (tr1 ++ tr2) = count_call_next tr1 + count_call_next tr2.
Proof. unfold count_call_next. by rewrite List.filter_app, length_app. Qed.

Lemma count_call_next_get_tool (tr : list Event) (tool : string) :
  count_call_next (tr ++ [EvGetTool tool]) = count_call_next tr.
Proof. rewrite count_call_next_app. unfold count_call_next at 2. simpl. lia. Qed.

Lemma count_call_next_call (tr : list Event) context :
  count_call_next (tr ++ [EvCallNext context]) = S (count_call_next tr).
Proof. rewrite count_call_next_app. unfold count_call_next at 2. simpl. lia. Qed.

Lemma await_call_next_fst call_next context s :
  fst (await_call_next call_next context s) = fst (call_next context (st_world s)).
Proof. unfold await_call_next. by destruct (call_next _ _). Qed.

Lemma await_call_next_world call_next context s :
  st_world (snd (await_call_next call_next context s)) = snd (call_next context (st_world s)).
Proof. unfold await_call_next. by destruct (call_next _ _). Qed.

Lemma await_call_next_trace call_next context s :
  st_trace (snd (await_call_next call_next context s)) = st_trace s ++ [EvCallNext context].
Proof. unfold await_call_next. by destruct (call_next _ _). Qed.


(** C10.  On every path through the filter that does not end in a signal
    outside [Exception] (arguments filtered, nothing to do, internal error
    caught), the continuation is awaited exactly once, in a world whose
    responses the filter has not touched; the filter's result and final world
    are the continuation's own. *)
Theorem on_call_tool_awaits_continuation_once context call_next s :
  catchable (fst (strip_arguments context s)) = true ->
  exists w1 : World,
    w_responses w1 = w_responses (st_world s) /\
    fst (on_call_tool context call_next s) = fst (call_next context w1) /\
    st_world (snd (on_call_tool context call_next s)) = snd (call_next context w1) /\
    count_call_next (st_trace (snd (on_call_tool context call_next s))) =
      S (count_call_next (st_trace s)).
Proof.
  intros Hcaught.
  assert (Hstage : exists s1,
            on_call_tool context call_next s = await_call_next call_next context s1 /\
            w_responses (st_world s1) = w_responses (st_world s) /\
            count_call_next (st_trace s1) = count_call_next (st_trace s)).
  { destruct (strip_arguments context s) as [[[]|e] s1] eqn:Hrun; simpl in Hcaught.
    - exists s1. split; [by apply on_call_tool_ok|].
      destruct (strip_ok_state _ _ _ Hrun) as [-> | (expected & args & ->)]; [done|].
      by rewrite stripped_responses, stripped_trace, count_call_next_get_tool.
    - exists (on_world (add_log (mkLog ERROR (MiddlewareError e) true)) s1).
      split; [by apply on_call_tool_caught|].
      pose proof (strip_raise_state _ _ _ _ Hrun) as ->.
      simpl. by rewrite count_call_next_get_tool. }
  destruct Hstage as (s1 & Hcall & Hresp & Hcount).
  exists (st_world s1). rewrite Hcall.
  rewrite await_call_next_fst, await_call_next_world, await_call_next_trace.
  by rewrite count_call_next_call, Hcount.
Qed.

(** X8.  Installing the filter twice changes nothing: a second pass over an
    invocation that a first pass has filtered leaves its message and the log
    as they are. *)
Lemma strip_arguments_twice context s s1 :
  strip_arguments context s = (Ok tt, s1) ->
  exists s2,
    strip_arguments context s1 = (Ok tt, s2) /\
    invocation context s2 = invocation context s1 /\
    w_log (st_world s2) = w_log (st_world s1).
Proof.
  intros Hrun. destruct (proceeds context s) eqn:Hp.
  - destruct (proceeds_true _ _ Hp) as (fc & args & Hfc & Hargs & Hne).
    rewrite (strip_run _ _ _ _ Hfc Hargs Hne) in Hrun.
    destruct (get_tool _ _) as [tool|e1] eqn:Htool; [|discriminate].
    destruct (expected_args_names _) as [expected|e1] eqn:Hexp; [|discriminate].
    injection Hrun as <-.
    pose proof (stripped_invocation context expected args s) as Hinv.
    destruct (decide (filtered_args expected args = ∅)) as [Hempty|Hfull].
    + exists (stripped context expected args s). split; [|done].
      apply strip_skips. unfold proceeds. rewrite Hfc, Hinv. simpl.
      by rewrite Hempty, map_size_empty.
    + exists (stripped context expected (filtered_args expected args)
                (stripped context expected args s)).
      split; [|split].
      * rewrite (strip_run _ _ fc (filtered_args expected args) Hfc); [| by rewrite Hinv | done].
        rewrite Hinv. simpl. by rewrite Htool, Hexp.
      * rewrite stripped_invocation, !Hinv. simpl.
        by rewrite filtered_args_filtered.
      * rewrite stripped_log, unknown_args_filtered.
        destruct (decide _); [by rewrite app_nil_r | done].
  - rewrite (strip_skips _ _ Hp) in Hrun. injection Hrun as <-.
    exists s. by rewrite (strip_skips _ _ Hp).
Qed.

End StripUnknownArguments.

(** *** The filter on the sample host *)

(** The invocation of [query] with [a], [b] and [c]: the continuation sees
    [a] and [b], and [c] is logged as unknown. *)
Example strip_query_example :
  let out := StripUnknownArgumentsMiddleware.on_call_tool
               Sample.context_query (Sample.next_returns None) Sample.state in
  fst out = Ok None /\
  arguments (invocation Sample.context_query (snd out)) =
    Some {[ "a" := PStr "up"; "b" := PInt 5 ]} /\
  w_log (st_world (snd out)) =
    [mkLog INFO (UnknownArguments "query" {[ "c" ]}) false] /\
  st_trace (snd out) = [EvGetTool "query"; EvCallNext Sample.context_query].
Proof. vm_compute. repeat split. Qed.

Lemma on_call_tool_restricts_arguments_witness :
  fastmcp_context Sample.context_query = Some Sample.host /\
  arguments (invocation Sample.context_query Sample.state) = Some Sample.args_abc /\
  Sample.args_abc <> ∅ /\
  get_tool (fastmcp Sample.host) (name (invocation Sample.context_query Sample.state)) =
    Ok Sample.tool_query /\
  StripUnknownArgumentsMiddleware.expected_args_names
    (dict_get (parameters Sample.tool_query) "properties" PNone) = Ok Sample.names_ab /\
  exists (s1 : St) (args' : pydict),
    (forall call_next,
       StripUnknownArgumentsMiddleware.on_call_tool Sample.context_query call_next Sample.state =
         await_call_next call_next Sample.context_query s1) /\
    invocation Sample.context_query s1 = mkMessage "query" (Some args') /\
    (forall k, args' !! k =
               if decide (k ∈ Sample.names_ab) then Sample.args_abc !! k else None) /\
    dom args' = dom Sample.args_abc ∩ Sample.names_ab /\
    w_log (st_world s1) =
      w_log (st_world Sample.state) ++
        (if decide (dom Sample.args_abc ∖ Sample.names_ab = ∅) then []
         else [mkLog INFO (UnknownArguments "query" (dom Sample.args_abc ∖ Sample.names_ab))
                 false]).
Proof.
  assert (Hne : Sample.args_abc <> ∅) by (intros Heq; vm_compute in Heq; discriminate Heq).
  repeat (split; [first [reflexivity | exact Hne]|]).
  apply (on_call_tool_restricts_arguments
           Sample.context_query Sample.state Sample.host Sample.args_abc
           Sample.tool_query Sample.names_ab);
    first [reflexivity | exact Hne].
Defined.


Lemma on_call_tool_noop_witness :
  (fastmcp_context Sample.context_empty = None \/
   arguments (invocation Sample.context_empty Sample.state) = None \/
   arguments (invocation Sample.context_empty Sample.state) = Some ∅) /\
  StripUnknownArgumentsMiddleware.on_call_tool
    Sample.context_empty (Sample.next_returns None) Sample.state =
    await_call_next (Sample.next_returns None) Sample.context_empty Sample.state.
Proof.
  assert (Hempty : arguments (invocation Sample.context_empty Sample.state) = Some ∅)
    by reflexivity.
  split; [right; right; exact Hempty|].
  apply (on_call_tool_noop Sample.context_empty (Sample.next_returns None) Sample.state).
  right; right; exact Hempty.
Defined.

Lemma on_call_tool_missing_schema_strips_all_witness :
  fastmcp_context Sample.context_health = Some Sample.host /\
  arguments (invocation Sample.context_health Sample.state) = Some Sample.args_verbose /\
  Sample.args_verbose <> ∅ /\
  get_tool (fastmcp Sample.host) (name (invocation Sample.context_health Sample.state)) =
    Ok Sample.tool_health /\
  (parameters Sample.tool_health !! "properties" = None \/
   parameters Sample.tool_health !! "properties" = Some PNone) /\
  StripUnknownArgumentsMiddleware.expected_args_names
    (dict_get (parameters Sample.tool_health) "properties" PNone) = Ok ∅ /\
  exists s1 : St,
    (forall call_next,
       StripUnknownArgumentsMiddleware.on_call_tool Sample.context_health call_next Sample.state =
         await_call_next call_next Sample.context_health s1) /\
    invocation Sample.context_health s1 = mkMessage "health" (Some ∅) /\
    w_log (st_world s1) =
      w_log (st_world Sample.state) ++
        [mkLog INFO (UnknownArguments "health" (dom Sample.args_verbose)) false].
Proof.
  assert (Hne : Sample.args_verbose <> ∅) by (intros Heq; vm_compute in Heq; discriminate Heq).
  assert (Hprops : parameters Sample.tool_health !! "properties" = None) by reflexivity.
  repeat (split; [first [reflexivity | exact Hne | left; exact Hprops]|]).
  apply (on_call_tool_missing_schema_strips_all
           Sample.context_health Sample.state Sample.host Sample.args_verbose
           Sample.tool_health);
    first [reflexivity | exact Hne | left; exact Hprops].
Defined.

Lemma on_call_tool_awaits_continuation_once_witness :
  catchable (fst (StripUnknownArgumentsMiddleware.strip_arguments
                    Sample.context_missing Sample.state)) = true /\
  exists w1 : World,
    w_responses w1 = w_responses (st_world Sample.state) /\
    fst (StripUnknownArgumentsMiddleware.on_call_tool
           Sample.context_missing (Sample.next_returns (Some 1)) Sample.state) =
      fst (Sample.next_returns (Some 1) Sample.context_missing w1) /\
    st_world (snd (StripUnknownArgumentsMiddleware.on_call_tool
                     Sample.context_missing (Sample.next_returns (Some 1)) Sample.state)) =
      snd (Sample.next_returns (Some 1) Sample.context_missing w1) /\
    count_call_next
      (st_trace (snd (StripUnknownArgumentsMiddleware.on_call_tool
                        Sample.context_missing (Sample.next_returns (Some 1)) Sample.state))) =
      S (count_call_next (st_trace Sample.state)).
Proof.
  split; [reflexivity|].
  apply (on_call_tool_awaits_continuation_once
           Sample.context_missing (Sample.next_returns (Some 1)) Sample.state).
  reflexivity.
Defined.

(** ** The response annotator *)

Section ResponseMetadata.

Import ResponseMetadataMiddleware.

Variable importlib_metadata : string -> string -> pyval.

Implicit Types (context : Context) (call_next : CallNext) (s : St) (e : PyExc).

Lemma time_operation_ok context call_next operation_name s result w' :
  call_next context (st_world s) = (Ok result, w') ->
  _time_operation context call_next operation_name s =
    (Ok (result, elapsed_ms (w_clock (st_world s)) (w_clock w')),
     mkSt (add_log (mkLog DEBUG
                      (OperationCompleted operation_name
                         (elapsed_ms (w_clock (st_world s)) (w_clock w'))) false) w')
          (st_trace s ++ [EvCallNext context])).
Proof.
  intros Hnext.
  unfold _time_operation, bind, try_except_Exception, perf_counter, await_call_next.
  by rewrite Hnext.
Qed.

Lemma time_operation_raise context call_next operation_name s e w' :
  call_next context (st_world s) = (Raise e, w') ->
  _time_operation context call_next operation_name s =
    (Raise e,
     mkSt (if isinstance_Exception e
           then add_log (mkLog WARNING
                           (OperationFailed operation_name
                              (elapsed_ms (w_clock (st_world s)) (w_clock w')) e) false) w'
           else w')
          (st_trace s ++ [EvCallNext context])).
Proof.
  intros Hnext.
  unfold _time_operation, bind, try_except_Exception, perf_counter, await_call_next.
  rewrite Hnext. by destruct (isinstance_Exception e).
Qed.


(** C3.  When the delegated call raises, the annotator raises that very
    exception; it has awaited the continuation and done nothing else to its
    collaborators, and every response object is as the continuation left
    it. *)
Theorem on_call_tool_reraises context call_next s e w' :
  call_next context (st_world s) = (Raise e, w') ->
  fst (on_call_tool importlib_metadata context call_next s) = Raise e /\
  w_responses (st_world (snd (on_call_tool importlib_metadata context call_next s))) =
    w_responses w' /\
  st_trace (snd (on_call_tool importlib_metadata context call_next s)) =
    st_trace s ++ [EvCallNext context].
Proof.
  intros Hnext. unfold on_call_tool, bind at 1, message_name.
  unfold bind. rewrite (time_operation_raise _ _ _ _ _ _ Hnext). simpl.
  by destruct (isinstance_Exception e).
Qed.

(** C5.  When the delegated call returns [None], the annotator returns [None];
    it has awaited the continuation and touched no metadata, and every
    response object is as the continuation left it. *)
Theorem on_call_tool_none context call_next s w' :
  call_next context (st_world s) = (Ok None, w') ->
  fst (on_call_tool importlib_metadata context call_next s) = Ok None /\
  w_responses (st_world (snd (on_call_tool importlib_metadata context call_next s))) =
    w_responses w' /\
  st_trace (snd (on_call_tool importlib_metadata context call_next s)) =
    st_trace s ++ [EvCallNext context].
Proof.
  intros Hnext. unfold on_call_tool, bind at 1, message_name.
  unfold bind. by rewrite (time_operation_ok _ _ _ _ _ _ Hnext).
Qed.

Lemma bind_ok {A B} (m : M A) (f : A -> M B) s a s' :
  m s = (Ok a, s') -> bind m f s = f a s'.
Proof. intros Hm. unfold bind. by rewrite Hm. Qed.

Lemma setattr_meta_spec (r : loc) (d : pydict) s :
  exists s',
    setattr_meta r d s = (Ok tt, s') /\
    writes_response r (mkResponse (content (w_responses (st_world s) r)) (Some d)) s s'.
Proof.
  eexists. split; [reflexivity|]. split; simpl.
  - apply fn_lookup_insert.
  - intros l Hl. by apply fn_lookup_insert_ne.
Qed.

Lemma meta_setitem_spec (r : loc) (key : string) (v : pyval) (d : pydict) s :
  meta (w_responses (st_world s) r) = Some d ->
  exists s',
    meta_setitem r key v s = (Ok tt, s') /\
    writes_response r
      (mkResponse (content (w_responses (st_world s) r)) (Some (<[key := v]> d))) s s'.
Proof.
  intros Hmeta. unfold meta_setitem. rewrite Hmeta.
  eexists. split; [reflexivity|]. split; simpl.
  - apply fn_lookup_insert.
  - intros l Hl. by apply fn_lookup_insert_ne.
Qed.

Lemma meta_getitem_spec (r : loc) (key : string) (v : pyval) (d : pydict) s :
  meta (w_responses (st_world s) r) = Some d ->
  d !! key = Some v ->
  exists s',
    meta_getitem r key s = (Ok v, s') /\ st_world s' = st_world s.
Proof.
  intros Hmeta Hkey. unfold meta_getitem. rewrite Hmeta, Hkey.
  eexists. split; reflexivity.
Qed.

(** The part of [on_call_tool] after [result is None] has been ruled out:
    lines 68 to 80. *)
Lemma annotate_spec (r : loc) (duration_ms : Q) s :
  exists s',
    (m <- getattr_meta r;;
     (if m is None then setattr_meta r ∅ else ret tt);;
     meta_setitem r PACKAGE_METADATA_KEY (package_record importlib_metadata);;
     meta_setitem r TIMING_METADATA_KEY (timing_record duration_ms);;
     v <- meta_getitem r PACKAGE_METADATA_KEY;;
     logger DEBUG (AddedPackageMetadata v) false;;
     ret (Some r)) s = (Ok (Some r), s') /\
    writes_response r
      (mkResponse (content (w_responses (st_world s) r))
         (Some (annotated_meta importlib_metadata duration_ms (meta (w_responses (st_world s) r))))) s s'.
Proof.
  set (old := w_responses (st_world s) r).
  (* getattr(result, "meta", None), and result.meta = {} when it is None *)
  assert (Hinit : exists s1,
            (m <- getattr_meta r;;
             if m is None then setattr_meta r ∅ else ret tt) s = (Ok tt, s1) /\
            writes_response r (mkResponse (content old) (Some (default ∅ (meta old)))) s s1).
  { unfold bind at 1, getattr_meta. fold old.
    destruct (meta old) as [d|] eqn:Hmeta.
    - eexists. split; [reflexivity|]. split; simpl; [|done].
      fold old. destruct old; simpl in *. by rewrite Hmeta.
    - destruct (setattr_meta_spec r ∅ (emit (EvGetattrMeta r) s)) as (s1 & Hrun & Hw).
      exists s1. split; [exact Hrun|]. exact Hw. }
  destruct Hinit as (s1 & Hrun1 & Hr1 & Ho1).
  destruct (meta_setitem_spec r PACKAGE_METADATA_KEY (package_record importlib_metadata)
              (default ∅ (meta old)) s1) as (s2 & Hrun2 & Hr2 & Ho2).
  { by rewrite Hr1. }
  destruct (meta_setitem_spec r TIMING_METADATA_KEY (timing_record duration_ms)
              (<[PACKAGE_METADATA_KEY := package_record importlib_metadata]>
                 (default ∅ (meta old))) s2) as (s3 & Hrun3 & Hr3 & Ho3).
  { by rewrite Hr2. }
  destruct (meta_getitem_spec r PACKAGE_METADATA_KEY (package_record importlib_metadata)
              (annotated_meta importlib_metadata duration_ms (meta old)) s3) as (s4 & Hrun4 & Hw4).
  { by rewrite Hr3. }
  { unfold annotated_meta. rewrite lookup_insert_ne by done. apply lookup_insert_eq. }
  exists (on_world (add_log (mkLog DEBUG (AddedPackageMetadata (package_record importlib_metadata)) false)) s4).
  split.
  - unfold bind at 1. unfold bind at 1 in Hrun1.
    destruct (getattr_meta r s) as [[m|e0] s0]; [|discriminate].
    rewrite (bind_ok _ _ _ _ _ Hrun1).
    rewrite (bind_ok _ _ _ _ _ Hrun2), (bind_ok _ _ _ _ _ Hrun3), (bind_ok _ _ _ _ _ Hrun4).
    reflexivity.
  - split; simpl; rewrite Hw4.
    + rewrite Hr3, Hr2, Hr1. reflexivity.
    + intros l Hl. by rewrite Ho3, Ho2, Ho1.
Qed.

Lemma on_call_tool_annotates context call_next s (r : loc) w' :
  call_next context (st_world s) = (Ok (Some r), w') ->
  exists s',
    on_call_tool importlib_metadata context call_next s = (Ok (Some r), s') /\
    w_responses (st_world s') r =
      mkResponse (content (w_responses w' r))
        (Some (annotated_meta importlib_metadata (elapsed_ms (w_clock (st_world s)) (w_clock w'))
                 (meta (w_responses w' r)))) /\
    (forall l, l <> r -> w_responses (st_world s') l = w_responses w' l).
Proof.
  intros Hnext.
  unfold on_call_tool, bind at 1, message_name.
  rewrite (bind_ok _ _ _ _ _ (time_operation_ok _ _ _ _ _ _ Hnext)).
  cbn [fst snd].
  match goal with
  | |- context [bind (getattr_meta r) _ ?s0] =>
      destruct (annotate_spec r (elapsed_ms (w_clock (st_world s)) (w_clock w')) s0)
        as (s' & Hrun & Hr & Ho)
  end.
  exists s'. split; [exact Hrun|]. simpl in Hr, Ho. auto.
Qed.


(** C8.  When the delegated call returns a response that already carries a
    metadata dict, the annotated dict agrees with it on every key other than
    the package key and the timing key; the response's content and the other
    response objects are unchanged. *)
Theorem on_call_tool_preserves_metadata context call_next s (r : loc) w' (m0 : pydict) :
  call_next context (st_world s) = (Ok (Some r), w') ->
  meta (w_responses w' r) = Some m0 ->
  let out := on_call_tool importlib_metadata context call_next s in
  exists m : pydict,
    meta (w_responses (st_world (snd out)) r) = Some m /\
    (forall k, k <> PACKAGE_METADATA_KEY -> k <> TIMING_METADATA_KEY -> m !! k = m0 !! k) /\
    content (w_responses (st_world (snd out)) r) = content (w_responses w' r) /\
    (forall l, l <> r -> w_responses (st_world (snd out)) l = w_responses w' l).
Proof.
  intros Hnext Hmeta out. subst out.
  destruct (on_call_tool_annotates _ _ _ _ _ Hnext) as (s' & -> & Hr & Ho).
  cbn [snd]. rewrite Hr. cbn [meta content]. eexists. split; [reflexivity|].
  split; [|split; [reflexivity | exact Ho]].
  intros k Hp Ht. unfold annotated_meta.
  rewrite !lookup_insert_ne by done. by rewrite Hmeta.
Qed.

End ResponseMetadata.

(** *** The annotator on the sample host *)

(** A successful call that took a quarter of a second: the response carries
    the package record and 250 milliseconds. *)
Example annotate_example :
  let out := ResponseMetadataMiddleware.on_call_tool Sample.installed
               Sample.context_query (Sample.next_returns (Some 0)) Sample.state in
  fst out = Ok (Some 0) /\
  meta (w_responses (st_world (snd out)) 0) =
    Some {[ "_package_metadata" :=
              PDict [("name", PStr "prometheus-mcp-server"); ("version", PStr "1.5.3")];
            "_timing_metadata" :=
              PDict [("tool_response_time_ms",
                      PFloat (ResponseMetadataMiddleware.elapsed_ms (3 # 2) ((3 # 2) + (1 # 4))))] ]} /\
  (ResponseMetadataMiddleware.elapsed_ms (3 # 2) ((3 # 2) + (1 # 4)) == 250)%Q.
Proof. split; [reflexivity|]. split; reflexivity. Qed.

Lemma on_call_tool_reraises_witness :
  Sample.next_raises Sample.ToolError Sample.context_query (st_world Sample.state) =
    (Raise Sample.ToolError, Sample.later Sample.world) /\
  fst (ResponseMetadataMiddleware.on_call_tool Sample.installed
         Sample.context_query (Sample.next_raises Sample.ToolError) Sample.state) =
    Raise Sample.ToolError /\
  w_responses
    (st_world (snd (ResponseMetadataMiddleware.on_call_tool Sample.installed
                      Sample.context_query (Sample.next_raises Sample.ToolError) Sample.state))) =
    w_responses (Sample.later Sample.world) /\
  st_trace (snd (ResponseMetadataMiddleware.on_call_tool Sample.installed
                   Sample.context_query (Sample.next_raises Sample.ToolError) Sample.state)) =
    st_trace Sample.state ++ [EvCallNext Sample.context_query].
Proof.
  split; [reflexivity|].
  apply (on_call_tool_reraises Sample.installed
           Sample.context_query (Sample.next_raises Sample.ToolError) Sample.state
           Sample.ToolError (Sample.later Sample.world)).
  reflexivity.
Defined.

Lemma on_call_tool_none_witness :
  Sample.next_returns None Sample.context_query (st_world Sample.state) =
    (Ok None, Sample.later Sample.world) /\
  fst (ResponseMetadataMiddleware.on_call_tool Sample.installed
         Sample.context_query (Sample.next_returns None) Sample.state) = Ok None /\
  w_responses
    (st_world (snd (ResponseMetadataMiddleware.on_call_tool Sample.installed
                      Sample.context_query (Sample.next_returns None) Sample.state))) =
    w_responses (Sample.later Sample.world) /\
  st_trace (snd (ResponseMetadataMiddleware.on_call_tool Sample.installed
                   Sample.context_query (Sample.next_returns None) Sample.state)) =
    st_trace Sample.state ++ [EvCallNext Sample.context_query].
Proof.
  split; [reflexivity|].
  apply (on_call_tool_none Sample.installed
           Sample.context_query (Sample.next_returns None) Sample.state
           (Sample.later Sample.world)).
  reflexivity.
Defined.


Lemma on_call_tool_preserves_metadata_witness :
  Sample.next_returns (Some 1) Sample.context_query (st_world Sample.state) =
    (Ok (Some 1), Sample.later Sample.world) /\
  meta (w_responses (Sample.later Sample.world) 1) = Some Sample.meta_request /\
  let out := ResponseMetadataMiddleware.on_call_tool Sample.installed
               Sample.context_query (Sample.next_returns (Some 1)) Sample.state in
  exists m : pydict,
    meta (w_responses (st_world (snd out)) 1) = Some m /\
    (forall k, k <> ResponseMetadataMiddleware.PACKAGE_METADATA_KEY ->
               k <> ResponseMetadataMiddleware.TIMING_METADATA_KEY ->
               m !! k = Sample.meta_request !! k) /\
    content (w_responses (st_world (snd out)) 1) =
      content (w_responses (Sample.later Sample.world) 1) /\
    (forall l, l <> 1 ->
       w_responses (st_world (snd out)) l = w_responses (Sample.later Sample.world) l).
Proof.
  split; [reflexivity|]. split; [reflexivity|].
  apply (on_call_tool_preserves_metadata Sample.installed
           Sample.context_query (Sample.next_returns (Some 1)) Sample.state
           1 (Sample.later Sample.world) Sample.meta_request);
    reflexivity.
Defined.

(** ** More on the argument filter *)

Section StripUnknownArgumentsEdges.

Import StripUnknownArgumentsMiddleware.

Implicit Types (context : Context) (call_next : CallNext) (s : St) (e : PyExc).

Lemma stripped_clock context expected (args : pydict) s :
  w_clock (st_world (stripped context expected args s)) = w_clock (st_world s).
Proof. unfold stripped, looked_up. by destruct (bool_decide _). Qed.

Lemma expected_args_names_falsy (v : pyval) :
  truthy v = false -> expected_args_names v = Ok ∅.
Proof. intros Hv. unfold expected_args_names. by rewrite Hv. Qed.

Lemma expected_args_names_not_dict (v : pyval) :
  truthy v = true ->
  (forall d, v <> PDict d) ->
  expected_args_names v = Raise (AttributeError "object has no attribute 'keys'").
Proof.
  intros Hv Hnd. unfold expected_args_names. rewrite Hv.
  destruct v; try reflexivity. by destruct (Hnd d).
Qed.


(** X4.  Every supplied argument is either kept or reported as unknown, and never
    both: the names of the filtered mapping and the unknown names partition
    the supplied names. *)
Theorem filtered_and_unknown_partition (expected : gset string) (args : pydict) :
  dom (filtered_args expected args) ∪ unknown_args expected (dom args) = dom args /\
  dom (filtered_args expected args) ## unknown_args expected (dom args).
Proof.
  rewrite filtered_args_dom. unfold unknown_args. split.
  - apply set_eq. intros k.
    rewrite elem_of_union, elem_of_intersection, elem_of_difference.
    destruct (decide (k ∈ expected)); tauto.
  - apply elem_of_disjoint. intros k.
    rewrite elem_of_intersection, elem_of_difference. tauto.
Qed.

(** X5.  An invocation whose arguments are all declared passes through: the
    continuation sees the message as it was and nothing is logged. *)
Theorem on_call_tool_keeps_declared_arguments
    context s fc (args : pydict) tool (expected : gset string) :
  fastmcp_context context = Some fc ->
  arguments (invocation context s) = Some args ->
  args <> ∅ ->
  get_tool (fastmcp fc) (name (invocation context s)) = Ok tool ->
  expected_args_names (dict_get (parameters tool) "properties" PNone) = Ok expected ->
  dom args ⊆ expected ->
  exists s1 : St,
    (forall call_next,
       on_call_tool context call_next s = await_call_next call_next context s1) /\
    invocation context s1 = invocation context s /\
    w_log (st_world s1) = w_log (st_world s).
Proof.
  intros Hfc Hargs Hne Htool Hexp Hsub.
  exists (stripped context expected args s). split; [|split].
  - intros call_next. apply on_call_tool_ok.
    by rewrite (strip_run _ _ _ _ Hfc Hargs Hne), Htool, Hexp.
  - rewrite stripped_invocation, (filtered_args_all _ _ Hsub).
    destruct (invocation context s) as [n a]. simpl in *. by rewrite Hargs.
  - rewrite stripped_log.
    destruct (decide _) as [_|Hunknown]; [by rewrite app_nil_r|].
    destruct Hunknown. unfold unknown_args. apply set_eq. intros k.
    rewrite elem_of_difference. split; [|intros Hk; by apply not_elem_of_empty in Hk].
    intros [Hk Hout]. destruct Hout. by apply Hsub.
Qed.

(** X2.  A [properties] entry that is present but falsy (the empty dict of a tool
    without parameters, an empty list, zero, the empty string) declares
    nothing: every supplied argument is stripped and logged as unknown, and
    nothing is raised. *)
Theorem on_call_tool_falsy_schema_strips_all
    context s fc (args : pydict) tool (v : pyval) :
  fastmcp_context context = Some fc ->
  arguments (invocation context s) = Some args ->
  args <> ∅ ->
  get_tool (fastmcp fc) (name (invocation context s)) = Ok tool ->
  parameters tool !! "properties" = Some v ->
  truthy v = false ->
  exists s1 : St,
    (forall call_next,
       on_call_tool context call_next s = await_call_next call_next context s1) /\
    invocation context s1 = mkMessage (name (invocation context s)) (Some ∅) /\
    w_log (st_world s1) =
      w_log (st_world s) ++
        [mkLog INFO (UnknownArguments (name (invocation context s)) (dom args)) false].
Proof.
  intros Hfc Hargs Hne Htool Hprops Hv.
  assert (Hexp : expected_args_names (dict_get (parameters tool) "properties" PNone) = Ok ∅).
  { unfold dict_get. rewrite Hprops. by apply expected_args_names_falsy. }
  exists (stripped context ∅ args s). split; [|split].
  - intros call_next. apply on_call_tool_ok.
    by rewrite (strip_run _ _ _ _ Hfc Hargs Hne), Htool, Hexp.
  - by rewrite stripped_invocation, filtered_args_empty.
  - rewrite stripped_log. unfold unknown_args. rewrite difference_empty_L.
    destruct (decide (dom args = ∅)) as [Hd|Hd]; [|done].
    by apply dom_empty_inv_L in Hd.
Qed.

(** X1.  A [properties] entry that is truthy but not a dict (a list of names, a
    string) has no [keys]: the [AttributeError] is caught, the arguments are
    left as they were, one ERROR record with the traceback is logged, and the
    continuation is awaited. *)
Theorem on_call_tool_malformed_schema
    context call_next s fc (args : pydict) tool (v : pyval) :
  fastmcp_context context = Some fc ->
  arguments (invocation context s) = Some args ->
  args <> ∅ ->
  get_tool (fastmcp fc) (name (invocation context s)) = Ok tool ->
  parameters tool !! "properties" = Some v ->
  truthy v = true ->
  (forall d, v <> PDict d) ->
  let e := AttributeError "object has no attribute 'keys'" in
  let s1 := on_world (add_log (mkLog ERROR (MiddlewareError e) true)) (looked_up context s) in
  on_call_tool context call_next s = await_call_next call_next context s1 /\
  invocation context s1 = invocation context s /\
  w_log (st_world s1) = w_log (st_world s) ++ [mkLog ERROR (MiddlewareError e) true].
Proof.
  intros Hfc Hargs Hne Htool Hprops Hv Hnd e s1.
  split; [|split; reflexivity].
  apply on_call_tool_caught; [|reflexivity].
  rewrite (strip_run _ _ _ _ Hfc Hargs Hne), Htool.
  unfold dict_get. rewrite Hprops. simpl.
  by rewrite (expected_args_names_not_dict _ Hv Hnd).
Qed.

(** X3.  A signal outside [Exception] that interrupts the registry lookup (a
    cancelled task) is not swallowed: it reaches the caller, the continuation
    is not awaited, nothing is logged and no object is written to. *)
Theorem on_call_tool_signal_passes_through
    context call_next s fc (args : pydict) e :
  fastmcp_context context = Some fc ->
  arguments (invocation context s) = Some args ->
  args <> ∅ ->
  get_tool (fastmcp fc) (name (invocation context s)) = Raise e ->
  isinstance_Exception e = false ->
  fst (on_call_tool context call_next s) = Raise e /\
  st_world (snd (on_call_tool context call_next s)) = st_world s /\
  count_call_next (st_trace (snd (on_call_tool context call_next s))) =
    count_call_next (st_trace s).
Proof.
  intros Hfc Hargs Hne Htool He.
  assert (Hrun : strip_arguments context s = (Raise e, looked_up context s))
    by (by rewrite (strip_run _ _ _ _ Hfc Hargs Hne), Htool).
  unfold on_call_tool, bind, try_except_Exception. rewrite Hrun, He. simpl.
  split; [reflexivity|]. split; [reflexivity|].
  apply count_call_next_get_tool.
Qed.


(** X7.  Whatever the filter does before the continuation runs, it does to the
    arguments of its own invocation and to the log: the responses, the clock,
    the other messages and the tool name are untouched, and at most one
    record is logged. *)
Theorem on_call_tool_filter_frame context s :
  catchable (fst (strip_arguments context s)) = true ->
  exists s1 : St,
    (forall call_next,
       on_call_tool context call_next s = await_call_next call_next context s1) /\
    w_responses (st_world s1) = w_responses (st_world s) /\
    w_clock (st_world s1) = w_clock (st_world s) /\
    name (invocation context s1) = name (invocation context s) /\
    (forall l, l <> message context ->
       w_messages (st_world s1) l = w_messages (st_world s) l) /\
    exists records,
      w_log (st_world s1) = w_log (st_world s) ++ records /\ length records <= 1.
Proof.
  intros Hcaught.
  destruct (strip_arguments context s) as [[[]|e] s1] eqn:Hrun; simpl in Hcaught.
  - exists s1. split; [intros call_next; by apply on_call_tool_ok|].
    destruct (strip_ok_state _ _ _ Hrun) as [-> | (expected & args & ->)].
    + do 4 (split; [done|]).
      exists []. split; [by rewrite app_nil_r | simpl; lia].
    + split; [apply stripped_responses|].
      split; [apply stripped_clock|].
      split; [by rewrite stripped_invocation|].
      split; [intros l Hl; by apply stripped_other_messages|].
      rewrite stripped_log. eexists. split; [reflexivity|].
      destruct (decide _); simpl; lia.
  - exists (on_world (add_log (mkLog ERROR (MiddlewareError e) true)) s1).
    split; [intros call_next; by apply on_call_tool_caught|].
    pose proof (strip_raise_state _ _ _ _ Hrun) as ->.
    do 4 (split; [done|]).
    eexists. split; [reflexivity|]. simpl. lia.
Qed.

End StripUnknownArgumentsEdges.

(** *** The filter on the edge cases *)

Lemma on_call_tool_keeps_declared_arguments_witness :
  fastmcp_context Edge.context_declared = Some Edge.host /\
  arguments (invocation Edge.context_declared Edge.state) = Some Edge.args_ab /\
  Edge.args_ab <> ∅ /\
  get_tool (fastmcp Edge.host) (name (invocation Edge.context_declared Edge.state)) =
    Ok Sample.tool_query /\
  StripUnknownArgumentsMiddleware.expected_args_names
    (dict_get (parameters Sample.tool_query) "properties" PNone) = Ok Sample.names_ab /\
  dom Edge.args_ab ⊆ Sample.names_ab /\
  exists s1 : St,
    (forall call_next,
       StripUnknownArgumentsMiddleware.on_call_tool Edge.context_declared call_next Edge.state =
         await_call_next call_next Edge.context_declared s1) /\
    invocation Edge.context_declared s1 = invocation Edge.context_declared Edge.state /\
    w_log (st_world s1) = w_log (st_world Edge.state).
Proof.
  assert (Hne : Edge.args_ab <> ∅) by (intros Heq; vm_compute in Heq; discriminate Heq).
  assert (Hsub : dom Edge.args_ab ⊆ Sample.names_ab).
  { apply (bool_decide_unpack _). vm_compute. exact I. }
  repeat (split; [first [reflexivity | exact Hne | exact Hsub]|]).
  apply (on_call_tool_keeps_declared_arguments
           Edge.context_declared Edge.state Edge.host Edge.args_ab
           Sample.tool_query Sample.names_ab);
    first [reflexivity | exact Hne | exact Hsub].
Defined.

Lemma on_call_tool_falsy_schema_strips_all_witness :
  fastmcp_context Edge.context_ping = Some Edge.host /\
  arguments (invocation Edge.context_ping Edge.state) = Some Sample.args_verbose /\
  Sample.args_verbose <> ∅ /\
  get_tool (fastmcp Edge.host) (name (invocation Edge.context_ping Edge.state)) =
    Ok Edge.tool_ping /\
  parameters Edge.tool_ping !! "properties" = Some (PDict []) /\
  truthy (PDict []) = false /\
  exists s1 : St,
    (forall call_next,
       StripUnknownArgumentsMiddleware.on_call_tool Edge.context_ping call_next Edge.state =
         await_call_next call_next Edge.context_ping s1) /\
    invocation Edge.context_ping s1 = mkMessage "ping" (Some ∅) /\
    w_log (st_world s1) =
      w_log (st_world Edge.state) ++
        [mkLog INFO (UnknownArguments "ping" (dom Sample.args_verbose)) false].
Proof.
  assert (Hne : Sample.args_verbose <> ∅) by (intros Heq; vm_compute in Heq; discriminate Heq).
  repeat (split; [first [reflexivity | exact Hne]|]).
  apply (on_call_tool_falsy_schema_strips_all
           Edge.context_ping Edge.state Edge.host Sample.args_verbose
           Edge.tool_ping (PDict []));
    first [reflexivity | exact Hne].
Defined.

Lemma on_call_tool_malformed_schema_witness :
  fastmcp_context Edge.context_legacy = Some Edge.host /\
  arguments (invocation Edge.context_legacy Edge.state) = Some Sample.args_abc /\
  Sample.args_abc <> ∅ /\
  get_tool (fastmcp Edge.host) (name (invocation Edge.context_legacy Edge.state)) =
    Ok Edge.tool_legacy /\
  parameters Edge.tool_legacy !! "properties" = Some (PList [PStr "a"; PStr "b"]) /\
  truthy (PList [PStr "a"; PStr "b"]) = true /\
  (forall d, PList [PStr "a"; PStr "b"] <> PDict d) /\
  let e := AttributeError "object has no attribute 'keys'" in
  let s1 := on_world (add_log (mkLog ERROR (MiddlewareError e) true))
              (looked_up Edge.context_legacy Edge.state) in
  StripUnknownArgumentsMiddleware.on_call_tool
    Edge.context_legacy (Sample.next_returns None) Edge.state =
    await_call_next (Sample.next_returns None) Edge.context_legacy s1 /\
  invocation Edge.context_legacy s1 = invocation Edge.context_legacy Edge.state /\
  w_log (st_world s1) =
    w_log (st_world Edge.state) ++ [mkLog ERROR (MiddlewareError e) true].
Proof.
  assert (Hne : Sample.args_abc <> ∅) by (intros Heq; vm_compute in Heq; discriminate Heq).
  assert (Hnd : forall d, PList [PStr "a"; PStr "b"] <> PDict d)
    by (intros d Hd; discriminate Hd).
  repeat (split; [first [reflexivity | exact Hne | exact Hnd]|]).
  apply (on_call_tool_malformed_schema
           Edge.context_legacy (Sample.next_returns None) Edge.state Edge.host
           Sample.args_abc Edge.tool_legacy (PList [PStr "a"; PStr "b"]));
    first [reflexivity | exact Hne | exact Hnd].
Defined.

Lemma on_call_tool_signal_passes_through_witness :
  fastmcp_context Edge.context_slow = Some Edge.host /\
  arguments (invocation Edge.context_slow Edge.state) = Some Sample.args_abc /\
  Sample.args_abc <> ∅ /\
  get_tool (fastmcp Edge.host) (name (invocation Edge.context_slow Edge.state)) =
    Raise Edge.CancelledError /\
  isinstance_Exception Edge.CancelledError = false /\
  fst (StripUnknownArgumentsMiddleware.on_call_tool
         Edge.context_slow (Sample.next_returns None) Edge.state) =
    Raise Edge.CancelledError /\
  st_world (snd (StripUnknownArgumentsMiddleware.on_call_tool
                   Edge.context_slow (Sample.next_returns None) Edge.state)) =
    st_world Edge.state /\
  count_call_next
    (st_trace (snd (StripUnknownArgumentsMiddleware.on_call_tool
                      Edge.context_slow (Sample.next_returns None) Edge.state))) =
    count_call_next (st_trace Edge.state).
Proof.
  assert (Hne : Sample.args_abc <> ∅) by (intros Heq; vm_compute in Heq; discriminate Heq).
  repeat (split; [first [reflexivity | exact Hne]|]).
  apply (on_call_tool_signal_passes_through
           Edge.context_slow (Sample.next_returns None) Edge.state Edge.host
           Sample.args_abc Edge.CancelledError);
    first [reflexivity | exact Hne].
Defined.


Lemma on_call_tool_filter_frame_witness :
  catchable (fst (StripUnknownArgumentsMiddleware.strip_arguments
                    Sample.context_query Sample.state)) = true /\
  exists s1 : St,
    (forall call_next,
       StripUnknownArgumentsMiddleware.on_call_tool Sample.context_query call_next Sample.state =
         await_call_next call_next Sample.context_query s1) /\
    w_responses (st_world s1) = w_responses (st_world Sample.state) /\
    w_clock (st_world s1) = w_clock (st_world Sample.state) /\
    name (invocation Sample.context_query s1) =
      name (invocation Sample.context_query Sample.state) /\
    (forall l, l <> message Sample.context_query ->
       w_messages (st_world s1) l = w_messages (st_world Sample.state) l) /\
    exists records,
      w_log (st_world s1) = w_log (st_world Sample.state) ++ records /\
      length records <= 1.
Proof.
  split; [reflexivity|].
  apply (on_call_tool_filter_frame Sample.context_query Sample.state).
  reflexivity.
Defined.

Lemma strip_arguments_twice_witness :
  StripUnknownArgumentsMiddleware.strip_arguments Sample.context_query Sample.state =
    (Ok tt, stripped Sample.context_query Sample.names_ab Sample.args_abc Sample.state) /\
  exists s2,
    StripUnknownArgumentsMiddleware.strip_arguments Sample.context_query
      (stripped Sample.context_query Sample.names_ab Sample.args_abc Sample.state) =
      (Ok tt, s2) /\
    invocation Sample.context_query s2 =
      invocation Sample.context_query
        (stripped Sample.context_query Sample.names_ab Sample.args_abc Sample.state) /\
    w_log (st_world s2) =
      w_log (st_world (stripped Sample.context_query Sample.names_ab Sample.args_abc
                         Sample.state)).
Proof.
  assert (Hrun : StripUnknownArgumentsMiddleware.strip_arguments
                   Sample.context_query Sample.state =
                 (Ok tt, stripped Sample.context_query Sample.names_ab Sample.args_abc
                           Sample.state)).
  { vm_compute. reflexivity. }
  split; [exact Hrun|].
  apply (strip_arguments_twice Sample.context_query Sample.state
           (stripped Sample.context_query Sample.names_ab Sample.args_abc Sample.state)).
  exact Hrun.
Defined.

(** ** More on the response annotator *)

Section ResponseMetadataEdges.

Import ResponseMetadataMiddleware.

Variable importlib_metadata : string -> string -> pyval.

Implicit Types (context : Context) (call_next : CallNext) (s : St) (e : PyExc) (r : loc).

Lemma bind_inv {A B} (m : M A) (f : A -> M B) s b s' :
  bind m f s = (Ok b, s') ->
  exists a s1, m s = (Ok a, s1) /\ f a s1 = (Ok b, s').
Proof.
  unfold bind. destruct (m s) as [[a|e] s1]; [|discriminate].
  intros Hf. by exists a, s1.
Qed.

Lemma meta_step_refl r s : meta_step r s s.
Proof. by repeat split. Qed.

Lemma meta_step_trans r s1 s2 s3 :
  meta_step r s1 s2 -> meta_step r s2 s3 -> meta_step r s1 s3.
Proof.
  intros (Hm1 & Hc1 & Hl1 & Ho1 & Hk1 & Hn1) (Hm2 & Hc2 & Hl2 & Ho2 & Hk2 & Hn2).
  repeat split; try congruence.
  intros l Hl. by rewrite Ho2, Ho1.
Qed.

Lemma count_call_next_meta_event (tr : list Event) (ev : Event) :
  calls_next ev = false -> count_call_next (tr ++ [ev]) = count_call_next tr.
Proof.
  intros Hev. rewrite count_call_next_app. unfold count_call_next at 2.
  simpl. rewrite Hev. simpl. lia.
Qed.

Lemma getattr_meta_step r s (x : Result (option pydict)) s' :
  getattr_meta r s = (x, s') -> meta_step r s s'.
Proof.
  unfold getattr_meta. intros [= _ <-].
  repeat split. simpl. by apply count_call_next_meta_event.
Qed.

Lemma setattr_meta_step r (d : pydict) s (x : Result unit) s' :
  setattr_meta r d s = (x, s') -> meta_step r s s'.
Proof.
  unfold setattr_meta. intros [= _ <-].
  repeat split; simpl.
  - intros l Hl. by apply fn_lookup_insert_ne.
  - by rewrite fn_lookup_insert.
  - by apply count_call_next_meta_event.
Qed.

Lemma meta_setitem_step r (key : string) (v : pyval) s (x : Result unit) s' :
  meta_setitem r key v s = (x, s') -> meta_step r s s'.
Proof.
  unfold meta_setitem. destruct (meta _); intros [= _ <-].
  - repeat split; simpl.
    + intros l Hl. by apply fn_lookup_insert_ne.
    + by rewrite fn_lookup_insert.
    + by apply count_call_next_meta_event.
  - repeat split. simpl. by apply count_call_next_meta_event.
Qed.

Lemma meta_getitem_run r (key : string) s (v : pyval) s' :
  meta_getitem r key s = (Ok v, s') ->
  s' = emit (EvMetaGetitem r key) s /\
  exists d : pydict, meta (w_responses (st_world s) r) = Some d /\ d !! key = Some v.
Proof.
  unfold meta_getitem. destruct (meta _) as [d|]; [|discriminate].
  destruct (d !! key) as [v'|] eqn:Hkey; [|discriminate].
  intros [= <- <-]. split; [reflexivity|]. by exists d.
Qed.

(** The state a successful call is left in. *)
Lemma on_call_tool_success_state context call_next s r w' :
  call_next context (st_world s) = (Ok (Some r), w') ->
  let duration_ms := elapsed_ms (w_clock (st_world s)) (w_clock w') in
  exists s',
    on_call_tool importlib_metadata context call_next s = (Ok (Some r), s') /\
    w_responses (st_world s') r =
      mkResponse (content (w_responses w' r))
        (Some (annotated_meta importlib_metadata duration_ms (meta (w_responses w' r)))) /\
    (forall l, l <> r -> w_responses (st_world s') l = w_responses w' l) /\
    w_messages (st_world s') = w_messages w' /\
    w_clock (st_world s') = w_clock w' /\
    w_log (st_world s') =
      w_log w' ++
        [mkLog DEBUG (OperationCompleted (operation_name context s) duration_ms) false;
         mkLog DEBUG (AddedPackageMetadata (package_record importlib_metadata)) false] /\
    count_call_next (st_trace s') = S (count_call_next (st_trace s)).
Proof.
  intros Hnext duration_ms.
  unfold on_call_tool, bind at 1, message_name.
  rewrite (bind_ok _ _ _ _ _ (time_operation_ok _ _ _ _ _ _ Hnext)).
  cbn [fst snd]. fold (invocation context s). fold (operation_name context s).
  fold duration_ms.
  match goal with
  | |- context [bind (getattr_meta r) _ ?s0] => set (st := s0)
  end.
  destruct (annotate_spec importlib_metadata r duration_ms st) as (s' & Hrun & Hr & Ho).
  exists s'. split; [exact Hrun|].
  split; [exact Hr|]. split; [exact Ho|].
  (* the steps of the run, one by one *)
  apply bind_inv in Hrun as (m & s0 & H0 & Hrun).
  apply bind_inv in Hrun as ([] & s1 & H1 & Hrun).
  apply bind_inv in Hrun as ([] & s2 & H2 & Hrun).
  apply bind_inv in Hrun as ([] & s3 & H3 & Hrun).
  apply bind_inv in Hrun as (v & s4 & H4 & Hrun).
  apply bind_inv in Hrun as ([] & s5 & H5 & Hrun).
  injection Hrun as <-. injection H5 as <-.
  destruct (meta_getitem_run _ _ _ _ _ H4) as (-> & d & Hd & Hv).
  assert (Hsteps : meta_step r st s3).
  { apply (meta_step_trans _ _ s0); [by eapply getattr_meta_step|].
    apply (meta_step_trans _ _ s1).
    { destruct m; [injection H1 as <-; apply meta_step_refl | by eapply setattr_meta_step]. }
    apply (meta_step_trans _ _ s2); by eapply meta_setitem_step. }
  destruct Hsteps as (Hm & Hc & Hl & _ & _ & Hn).
  (* the value that is logged is the package record *)
  assert (v = package_record importlib_metadata) as ->.
  { simpl in Hr. rewrite Hr in Hd. simpl in Hd. injection Hd as <-.
    unfold annotated_meta in Hv.
    rewrite lookup_insert_ne, lookup_insert_eq in Hv by done. congruence. }
  simpl. rewrite Hm, Hc, Hl. subst st. simpl.
  repeat split.
  - by rewrite <- app_assoc.
  - rewrite count_call_next_meta_event by done.
    rewrite Hn. simpl. apply count_call_next_call.
Qed.

(** The state a call that returned [None] is left in. *)
Lemma on_call_tool_none_state context call_next s w' :
  call_next context (st_world s) = (Ok None, w') ->
  on_call_tool importlib_metadata context call_next s =
    (Ok None,
     mkSt (add_log (mkLog DEBUG
                      (OperationCompleted (operation_name context s)
                         (elapsed_ms (w_clock (st_world s)) (w_clock w'))) false) w')
          (st_trace s ++ [EvCallNext context])).
Proof.
  intros Hnext. unfold on_call_tool, bind at 1, message_name.
  by rewrite (bind_ok _ _ _ _ _ (time_operation_ok _ _ _ _ _ _ Hnext)).
Qed.

(** The state a call that raised is left in. *)
Lemma on_call_tool_raise_state context call_next s e w' :
  call_next context (st_world s) = (Raise e, w') ->
  on_call_tool importlib_metadata context call_next s =
    (Raise e,
     mkSt (if isinstance_Exception e
           then add_log (mkLog WARNING
                           (OperationFailed (operation_name context s)
                              (elapsed_ms (w_clock (st_world s)) (w_clock w')) e) false) w'
           else w')
          (st_trace s ++ [EvCallNext context])).
Proof.
  intros Hnext. unfold on_call_tool, bind at 1, message_name.
  unfold bind. by rewrite (time_operation_raise _ _ _ _ _ _ Hnext).
Qed.

(** X9.  On every path the annotator hands back what the continuation produced,
    the same reference, [None] or exception, and has awaited it exactly once:
    it adds no failure of its own. *)
Theorem annotator_returns_continuation_outcome context call_next s :
  fst (on_call_tool importlib_metadata context call_next s) =
    fst (call_next context (st_world s)) /\
  count_call_next (st_trace (snd (on_call_tool importlib_metadata context call_next s))) =
    S (count_call_next (st_trace s)).
Proof.
  destruct (call_next context (st_world s)) as [[[r|]|e] w'] eqn:Hnext.
  - destruct (on_call_tool_success_state _ _ _ _ _ Hnext)
      as (s' & -> & _ & _ & _ & _ & _ & Hn).
    by split.
  - rewrite (on_call_tool_none_state _ _ _ _ Hnext).
    split; [reflexivity|]. apply count_call_next_call.
  - rewrite (on_call_tool_raise_state _ _ _ _ _ Hnext).
    split; [reflexivity|]. apply count_call_next_call.
Qed.

(** X10.  On every path the annotator leaves the messages, the clock and the
    content of every response as the continuation left them, and writes to no
    response other than the one the continuation returned. *)
Theorem annotator_frame context call_next s :
  let out := on_call_tool importlib_metadata context call_next s in
  let w' := snd (call_next context (st_world s)) in
  w_messages (st_world (snd out)) = w_messages w' /\
  w_clock (st_world (snd out)) = w_clock w' /\
  (forall l, content (w_responses (st_world (snd out)) l) = content (w_responses w' l)) /\
  (forall l, fst (call_next context (st_world s)) <> Ok (Some l) ->
     w_responses (st_world (snd out)) l = w_responses w' l).
Proof.
  intros out w'. subst out w'.
  destruct (call_next context (st_world s)) as [[[r|]|e] w'] eqn:Hnext.
  - destruct (on_call_tool_success_state _ _ _ _ _ Hnext)
      as (s' & -> & Hr & Ho & Hm & Hc & _ & _).
    cbn [fst snd]. repeat split; [exact Hm | exact Hc | |].
    + intros l. destruct (decide (l = r)) as [->|Hl].
      * by rewrite Hr.
      * by rewrite Ho.
    + intros l Hl. apply Ho. congruence.
  - rewrite (on_call_tool_none_state _ _ _ _ Hnext). by repeat split.
  - rewrite (on_call_tool_raise_state _ _ _ _ _ Hnext).
    cbn [fst snd st_world]. by destruct (isinstance_Exception e).
Qed.

(** X11.  What the annotator logs, on every path: the completion and the attached
    package record at DEBUG level after a response, the completion alone after
    [None], one WARNING with the exception after a failure, and nothing at all
    when the call was interrupted by a signal outside [Exception].  The
    operation is named after the invoked tool. *)
Theorem annotator_log context call_next s :
  let out := on_call_tool importlib_metadata context call_next s in
  let w' := snd (call_next context (st_world s)) in
  let operation := String.append "Tool '" (String.append (name (invocation context s)) "'") in
  let duration_ms := elapsed_ms (w_clock (st_world s)) (w_clock w') in
  w_log (st_world (snd out)) =
    w_log w' ++
      match fst (call_next context (st_world s)) with
      | Ok (Some _) =>
          [mkLog DEBUG (OperationCompleted operation duration_ms) false;
           mkLog DEBUG (AddedPackageMetadata
                          (PDict [("name", _package_metadata importlib_metadata "name");
                                  ("version", _package_metadata importlib_metadata "version")]))
             false]
      | Ok None => [mkLog DEBUG (OperationCompleted operation duration_ms) false]
      | Raise e =>
          if isinstance_Exception e
          then [mkLog WARNING (OperationFailed operation duration_ms e) false]
          else []
      end.
Proof.
  intros out w' operation duration_ms. subst out w' operation duration_ms.
  destruct (call_next context (st_world s)) as [[[r|]|e] w'] eqn:Hnext.
  - destruct (on_call_tool_success_state _ _ _ _ _ Hnext)
      as (s' & -> & _ & _ & _ & _ & Hl & _).
    exact Hl.
  - by rewrite (on_call_tool_none_state _ _ _ _ Hnext).
  - rewrite (on_call_tool_raise_state _ _ _ _ _ Hnext).
    cbn [fst snd st_world].
    destruct (isinstance_Exception e); [reflexivity | by rewrite app_nil_r].
Qed.

(** X12.  The timing entry holds exactly the clock difference around the delegated
    call, in milliseconds: the annotator's own work is not measured. *)
Theorem annotator_timing_exact context call_next s r w' :
  call_next context (st_world s) = (Ok (Some r), w') ->
  let out := on_call_tool importlib_metadata context call_next s in
  exists m : pydict,
    meta (w_responses (st_world (snd out)) r) = Some m /\
    m !! TIMING_METADATA_KEY =
      Some (PDict [("tool_response_time_ms",
                    PFloat ((w_clock w' - w_clock (st_world s)) * 1000))]).
Proof.
  intros Hnext out. subst out.
  destruct (on_call_tool_success_state _ _ _ _ _ Hnext) as (s' & -> & Hr & _).
  cbn [snd]. rewrite Hr. cbn [meta]. eexists. split; [reflexivity|].
  unfold annotated_meta. apply lookup_insert_eq.
Qed.

(** X13.  Annotation adds the two fixed keys to the key set and nothing else, so a
    response that already carries both keeps its key set. *)
Theorem annotator_key_set context call_next s r w' :
  call_next context (st_world s) = (Ok (Some r), w') ->
  let out := on_call_tool importlib_metadata context call_next s in
  exists m : pydict,
    meta (w_responses (st_world (snd out)) r) = Some m /\
    dom m =
      dom (default ∅ (meta (w_responses w' r))) ∪
        {[ PACKAGE_METADATA_KEY; TIMING_METADATA_KEY ]}.
Proof.
  intros Hnext out. subst out.
  destruct (on_call_tool_success_state _ _ _ _ _ Hnext) as (s' & -> & Hr & _).
  cbn [snd]. rewrite Hr. cbn [meta]. eexists. split; [reflexivity|].
  unfold annotated_meta. rewrite !dom_insert_L.
  apply set_eq. intros k.
  rewrite !elem_of_union, !elem_of_singleton. tauto.
Qed.

End ResponseMetadataEdges.

(** *** The annotator on the sample host *)

Lemma annotator_timing_exact_witness :
  Sample.next_returns (Some 0) Sample.context_query (st_world Sample.state) =
    (Ok (Some 0), Sample.later Sample.world) /\
  let out := ResponseMetadataMiddleware.on_call_tool Sample.installed
               Sample.context_query (Sample.next_returns (Some 0)) Sample.state in
  exists m : pydict,
    meta (w_responses (st_world (snd out)) 0) = Some m /\
    m !! ResponseMetadataMiddleware.TIMING_METADATA_KEY =
      Some (PDict [("tool_response_time_ms",
                    PFloat ((w_clock (Sample.later Sample.world) -
                             w_clock (st_world Sample.state)) * 1000))]).
Proof.
  split; [reflexivity|].
  apply (annotator_timing_exact Sample.installed
           Sample.context_query (Sample.next_returns (Some 0)) Sample.state
           0 (Sample.later Sample.world)).
  reflexivity.
Defined.

Lemma annotator_key_set_witness :
  Sample.next_returns (Some 1) Sample.context_query (st_world Sample.state) =
    (Ok (Some 1), Sample.later Sample.world) /\
  let out := ResponseMetadataMiddleware.on_call_tool Sample.installed
               Sample.context_query (Sample.next_returns (Some 1)) Sample.state in
  exists m : pydict,
    meta (w_responses (st_world (snd out)) 1) = Some m /\
    dom m =
      dom (default ∅ (meta (w_responses (Sample.later Sample.world) 1))) ∪
        {[ ResponseMetadataMiddleware.PACKAGE_METADATA_KEY;
           ResponseMetadataMiddleware.TIMING_METADATA_KEY ]}.
Proof.
  split; [reflexivity|].
  apply (annotator_key_set Sample.installed
           Sample.context_query (Sample.next_returns (Some 1)) Sample.state
           1 (Sample.later Sample.world)).
  reflexivity.
Defined.
